(** * HomeActivity: the shell's record of one running activity

    A shallow embedding of [src/model/homeactivity.py] (class
    [HomeActivity]) and the properties of it that the specification
    states.

    Conventions of the embedding:
    - a Python reference that may be [None] is an [option];
    - Python truthiness ([if x:], [not x], [a and b]) is written out for
      each type it is applied to;
    - a method that mutates the object or talks to a collaborator is a
      computation in the monad [M]: it receives the object together with
      the chronological trace of the calls made on collaborators (session
      bus, remote service, logger) and returns an outcome (a value or a
      raised exception) and the new object and trace;
    - what a collaborator answers (the bus, the clock, the presence
      service, the profile, the window manager) is an argument of the
      method that asks;
    - objects of the collaborators' classes (windows, proxies, interfaces,
      activity infos) are truthy, as Python objects are by default;
    - [time.time()] returns a float that the class only stores and hands
      back, so a clock reading is a rational number here. *)

From Stdlib Require Import String Ascii List Bool ZArith QArith Lia.
Import ListNotations.
Local Open Scope string_scope.
Local Open Scope Z_scope.

(** ** Python values used by the class *)

Inductive PyExn : Type :=
| ValueError (msg : string)
| AttributeError (msg : string).

Inductive Res (A : Type) : Type :=
| Ok (a : A)
| Raise (e : PyExn).
Arguments Ok {A} a.
Arguments Raise {A} e.

(** [if s:] for a value that is [None] or a [str]. *)
Definition truthy_str (s : option string) : bool :=
  match s with
  | None => false
  | Some EmptyString => false
  | Some _ => true
  end.

(** [if n:] for an [int]. *)
Definition truthy_int (n : Z) : bool := negb (n =? 0).

(** [a == b] for values that are [None] or a [str]. *)
Definition py_str_eq (a b : option string) : bool :=
  match a, b with
  | None, None => true
  | Some x, Some y => String.eqb x y
  | _, _ => false
  end.

(** ** Collaborators *)

(** A [WnckWindow], through the three getters the class calls. *)
Record Window : Type := mkWindow {
  win_get_name : string;
  win_get_xid : Z;
  win_get_pid : Z
}.

(** [sugar.activity.registry.ActivityInfo]: only [.icon] is read. *)
Record ActivityInfo : Type := mkActivityInfo {
  icon : string
}.

(** The proxy returned by [bus.get_object(bus_name, object_path)]. *)
Record ProxyObject : Type := mkProxyObject {
  proxy_bus_name : option string;
  proxy_object_path : string
}.

(** [dbus.Interface(proxy, dbus_interface)]. *)
Record Interface : Type := mkInterface {
  iface_object : ProxyObject;
  iface_dbus_interface : string
}.

(** The session bus at the moment it is asked: [bus.get_object] returns a
    proxy, or raises [dbus.DBusException] (here [None]). *)
Definition Bus : Type := option string -> string -> option ProxyObject.

(** An entry of [pservice.get_activities()], through [act.props]. *)
Record PSActivity : Type := mkPSActivity {
  props_id : string;
  props_color : string
}.

(** [XoColor(color_string)]. *)
Record XoColor : Type := mkXoColor {
  color_string : string
}.

(** A [GParamSpec], through [pspec.name]. *)
Record ParamSpec : Type := mkParamSpec {
  pspec_name : string
}.

(** Calls made on collaborators, in the order they happen. *)
Inductive Event : Type :=
| EvSessionBus
| EvGetObject (bus_name : option string) (object_path : string)
| EvAddSignalReceiver (signal_name dbus_interface : string)
| EvSetActive (service : Interface) (state : bool)
| EvLogError (msg : string).

(** ** Module constants *)

Definition _SERVICE_NAME : string := "org.laptop.Activity".
Definition _SERVICE_PATH : string := "/org/laptop/Activity".
Definition _SERVICE_INTERFACE : string := "org.laptop.Activity".

(** ** The object *)

Record HomeActivity : Type := mkHomeActivity {
  _window : option Window;
  _service : option Interface;
  _activity_id : option string;
  _activity_info : option ActivityInfo;
  _launch_time : Q;
  _launching : bool
}.

Definition with_window (w : option Window) (a : HomeActivity) : HomeActivity :=
  mkHomeActivity w (_service a) (_activity_id a) (_activity_info a)
                 (_launch_time a) (_launching a).

Definition with_service (s : option Interface) (a : HomeActivity) : HomeActivity :=
  mkHomeActivity (_window a) s (_activity_id a) (_activity_info a)
                 (_launch_time a) (_launching a).

Definition with_launching (b : bool) (a : HomeActivity) : HomeActivity :=
  mkHomeActivity (_window a) (_service a) (_activity_id a) (_activity_info a)
                 (_launch_time a) b.

(** The object and the trace of collaborator calls so far. *)
Record World : Type := mkWorld {
  self : HomeActivity;
  trace : list Event
}.

(** ** State and exception monad *)

Definition M (A : Type) : Type := World -> Res A * World.

Definition ret {A : Type} (a : A) : M A := fun w => (Ok a, w).

Definition bind {A B : Type} (m : M A) (k : A -> M B) : M B :=
  fun w =>
    match m w with
    | (Ok a, w') => k a w'
    | (Raise e, w') => (Raise e, w')
    end.

Definition raise {A : Type} (e : PyExn) : M A := fun w => (Raise e, w).

Definition get_self : M HomeActivity := fun w => (Ok (self w), w).

Definition update (f : HomeActivity -> HomeActivity) : M unit :=
  fun w => (Ok tt, mkWorld (f (self w)) (trace w)).

Definition emit (e : Event) : M unit :=
  fun w => (Ok tt, mkWorld (self w) (trace w ++ [e])).

Declare Scope py_scope.
Delimit Scope py_scope with py.
Notation "x <- m ;; k" := (bind m (fun x => k))
  (at level 61, m at next level, right associativity) : py_scope.
Notation "m ;; k" := (bind m (fun _ => k))
  (at level 61, right associativity) : py_scope.
Local Open Scope py_scope.

(** ** Methods *)

(** [set_window]: [if not window: raise ValueError(...)]. *)
Definition set_window (window : option Window) : M unit :=
  match window with
  | None => raise (ValueError "window must be valid")
  | Some w => update (with_window (Some w))
  end.

Definition get_service (a : HomeActivity) : option Interface := _service a.

(** [get_title]: the window's name, or [''] without a window. *)
Definition get_title (a : HomeActivity) : string :=
  match _window a with
  | Some w => win_get_name w
  | None => EmptyString
  end.

Definition get_activity_id (a : HomeActivity) : option string := _activity_id a.

(** [self._window.get_xid()]: an attribute lookup on [None] raises. *)
Definition get_xid (a : HomeActivity) : Res Z :=
  match _window a with
  | Some w => Ok (win_get_xid w)
  | None => Raise (AttributeError "'NoneType' object has no attribute 'get_xid'")
  end.

Definition get_window (a : HomeActivity) : option Window := _window a.

Definition get_launch_time (a : HomeActivity) : Q := _launch_time a.

Definition get_pid (a : HomeActivity) : Res Z :=
  match _window a with
  | Some w => Ok (win_get_pid w)
  | None => Raise (AttributeError "'NoneType' object has no attribute 'get_pid'")
  end.

(** [os.path.join(a, b)] for two components (posixpath). *)
Fixpoint ends_with_slash (s : string) : bool :=
  match s with
  | EmptyString => false
  | String c EmptyString => Ascii.eqb c "/"%char
  | String _ rest => ends_with_slash rest
  end.

Definition os_path_join (a b : string) : string :=
  match b with
  | String "/"%char _ => b
  | _ => if (String.eqb a EmptyString || ends_with_slash a)%bool then a ++ b
         else a ++ "/" ++ b
  end.

Section WindowManager.

(** [wm.get_bundle_id(window)] and [config.data_path] live outside this
    file. *)
Variable wm_get_bundle_id : Window -> option string.
Variable config_data_path : string.

Definition get_type (a : HomeActivity) : option string :=
  match _window a with
  | None => None
  | Some w => wm_get_bundle_id w
  end.

Definition is_journal (a : HomeActivity) : bool :=
  py_str_eq (get_type a) (Some "org.laptop.JournalActivity").

Definition get_icon_path (a : HomeActivity) : option string :=
  if is_journal a then
    Some (os_path_join config_data_path "icons/activity-journal.svg")
  else
    match _activity_info a with
    | Some info => Some (icon info)
    | None => None
    end.

End WindowManager.

(** [get_icon_color]: the [for ... break] scan over the presence service's
    activities. *)
Fixpoint scan_activities (aid : option string) (acts : list PSActivity)
  : option PSActivity :=
  match acts with
  | [] => None
  | act :: rest =>
      if py_str_eq aid (Some (props_id act)) then Some act
      else scan_activities aid rest
  end.

Definition get_icon_color (pservice_activities : list PSActivity)
    (profile_color : XoColor) (a : HomeActivity) : XoColor :=
  match scan_activities (_activity_id a) pservice_activities with
  | Some activity => mkXoColor (props_color activity)
  | None => profile_color
  end.

(** [equals]: [x and y] evaluates [y] only when [x] is truthy. *)
Definition equals (a activity : HomeActivity) : Res bool :=
  if (truthy_str (_activity_id a) && truthy_str (get_activity_id activity))%bool
  then Ok (py_str_eq (_activity_id a) (get_activity_id activity))
  else
    match get_xid a with
    | Raise e => Raise e
    | Ok x =>
        if truthy_int x then
          match get_xid activity with
          | Raise e => Raise e
          | Ok y =>
              if truthy_int y then
                match get_xid a with
                | Raise e => Raise e
                | Ok x' =>
                    match get_xid activity with
                    | Raise e => Raise e
                    | Ok y' => Ok (x' =? y')
                    end
                end
              else Ok false
          end
        else Ok false
    end.

Definition do_set_property (pspec : ParamSpec) (value : bool) : M unit :=
  if String.eqb (pspec_name pspec) "launching"
  then update (with_launching value)
  else ret tt.

Definition do_get_property (pspec : ParamSpec) (a : HomeActivity) : option bool :=
  if String.eqb (pspec_name pspec) "launching"
  then Some (_launching a)
  else None.

Definition _get_service_name (a : HomeActivity) : option string :=
  match _activity_id a with
  | None => None
  | Some EmptyString => None
  | Some aid => Some (_SERVICE_NAME ++ aid)
  end.

(** [_retrieve_service]: a [dbus.DBusException] of the lookup is caught
    and leaves [_service] at [None]. *)
Definition _retrieve_service (bus : Bus) : M unit :=
  a <- get_self ;;
  match _activity_id a with
  | None => ret tt
  | Some EmptyString => ret tt
  | Some aid =>
      emit EvSessionBus ;;
      let bus_name := _get_service_name a in
      let object_path := _SERVICE_PATH ++ "/" ++ aid in
      emit (EvGetObject bus_name object_path) ;;
      match bus bus_name object_path with
      | Some proxy =>
          update (with_service (Some (mkInterface proxy _SERVICE_INTERFACE)))
      | None => update (with_service None)
      end
  end.

(** [set_active]: the remote call is asynchronous; its reply comes back
    later through one of the two handlers below. *)
Definition set_active (state : bool) : M unit :=
  a <- get_self ;;
  match _service a with
  | Some service => emit (EvSetActive service state)
  | None => ret tt
  end.

Definition _set_active_success : M unit := ret tt.

Definition _set_active_error (err : string) : M unit :=
  emit (EvLogError ("set_active() failed: " ++ err)).

Definition _name_owner_changed_cb (bus : Bus) (name old new : string) : M unit :=
  a <- get_self ;;
  if py_str_eq (Some name) (_get_service_name a) then
    _retrieve_service bus ;;
    set_active true
  else ret tt.

(** [__init__]: [now] is what [time.time()] returns. *)
Definition __init__ (bus : Bus) (now : Q)
    (activity_info : option ActivityInfo) (activity_id : option string)
    (window : option Window) : M unit :=
  update (fun _ => mkHomeActivity None None activity_id activity_info now false) ;;
  match window with
  | Some _ => set_window window
  | None => ret tt
  end ;;
  _retrieve_service bus ;;
  a <- get_self ;;
  match _service a with
  | Some _ => ret tt
  | None =>
      emit EvSessionBus ;;
      emit (EvAddSignalReceiver "NameOwnerChanged" "org.freedesktop.DBus")
  end.

(** [HomeActivity(activity_info, activity_id, window)]: allocation of the
    object followed by [__init__], after the collaborator calls [tr]. *)
Definition HomeActivity_new (bus : Bus) (now : Q)
    (activity_info : option ActivityInfo) (activity_id : option string)
    (window : option Window) (tr : list Event) : Res unit * World :=
  __init__ bus now activity_info activity_id window
           (mkWorld (mkHomeActivity None None None None 0%Q false) tr).

(** ** The object's life after construction *)

(** What the shell and the event loop can do to a constructed record. *)
Inductive Call : Type :=
| CallSetWindow (window : option Window)
| CallSetActive (state : bool)
| CallSetProperty (pspec : ParamSpec) (value : bool)
| SignalNameOwnerChanged (bus : Bus) (name old new : string)
| ReplySetActiveSuccess
| ReplySetActiveError (err : string).

Definition run_call (c : Call) : M unit :=
  match c with
  | CallSetWindow window => set_window window
  | CallSetActive state => set_active state
  | CallSetProperty pspec value => do_set_property pspec value
  | SignalNameOwnerChanged bus name old new =>
      _name_owner_changed_cb bus name old new
  | ReplySetActiveSuccess => _set_active_success
  | ReplySetActiveError err => _set_active_error err
  end.

(** An exception of one call goes to its caller; the record lives on. *)
Fixpoint run_calls (cs : list Call) (w : World) : World :=
  match cs with
  | [] => w
  | c :: rest => run_calls rest (snd (run_call c w))
  end.

(** ** Observations on traces *)

Definition is_get_object (e : Event) : bool :=
  match e with EvGetObject _ _ => true | _ => false end.

Definition is_add_signal_receiver (e : Event) : bool :=
  match e with EvAddSignalReceiver _ _ => true | _ => false end.

Definition is_set_active (e : Event) : bool :=
  match e with EvSetActive _ _ => true | _ => false end.

Definition count_events (p : Event -> bool) (t : list Event) : nat :=
  length (filter p t).

(** ** The specification's reading of equality *)

Definition same_nonempty_id (a b : HomeActivity) : Prop :=
  truthy_str (_activity_id a) = true /\ _activity_id a = _activity_id b.

Definition same_window_id (a b : HomeActivity) : Prop :=
  exists wa wb, _window a = Some wa /\ _window b = Some wb /\
                win_get_xid wa = win_get_xid wb.

(** "the same non-empty id, OR, when the ids are absent or differ, both
    windows exist and carry the same window identifier". *)
Definition spec_equals (a b : HomeActivity) : Prop :=
  same_nonempty_id a b \/ (~ same_nonempty_id a b /\ same_window_id a b).

(** What the code tests instead. *)
Definition id_undecided (a b : HomeActivity) : Prop :=
  (truthy_str (_activity_id a) && truthy_str (_activity_id b))%bool = false.

Definition same_nonzero_window_id (a b : HomeActivity) : Prop :=
  exists wa wb, _window a = Some wa /\ _window b = Some wb /\
                win_get_xid wa = win_get_xid wb /\ win_get_xid wa <> 0.

(** ** Sample data *)

Definition sample_info : ActivityInfo := mkActivityInfo "activity-write.svg".

Definition sample_window (xid : Z) : Window := mkWindow "Write" xid 4242.

Definition sample_record (aid : option string) (win : option Window)
  : HomeActivity :=
  mkHomeActivity win None aid (Some sample_info) (1194000000 # 1) false.

Definition no_bus : Bus := fun _ _ => None.

Definition full_bus : Bus := fun n p => Some (mkProxyObject n p).

Definition journal_wm : Window -> option string :=
  fun w => if win_get_xid w =? 1 then Some "org.laptop.JournalActivity"
           else Some "org.laptop.AbiWordActivity".

Definition id_differs_same_window_a : HomeActivity :=
  sample_record (Some "abc123") (Some (sample_window 7)).

Definition id_differs_same_window_b : HomeActivity :=
  sample_record (Some "def456") (Some (sample_window 7)).

Definition no_id_window_zero : HomeActivity :=
  sample_record None (Some (sample_window 0)).

(** A record constructed without a reachable service, whose [launching]
    property the shell has then set. *)
Definition launching_world : World :=
  run_calls [CallSetProperty (mkParamSpec "launching") true]
    (snd (HomeActivity_new no_bus (1194000000 # 1) (Some sample_info)
                           (Some "abc123") None [])).

(** ** The no-service state *)

(** The state a record constructed with an empty id is in, relative to the
    trace [tr] that preceded its construction. *)
Record no_service_state (tr : list Event) (w : World) : Prop := {
  nss_id : truthy_str (_activity_id (self w)) = false;
  nss_service : _service (self w) = None;
  nss_lookups :
    count_events is_get_object (trace w) = count_events is_get_object tr;
  nss_calls :
    count_events is_set_active (trace w) = count_events is_set_active tr
}.

(** ** Reading a sequence of calls *)

(** The window a call leaves attached, given the one attached before. *)
Definition window_after (cur : option Window) (c : Call) : option Window :=
  match c with
  | CallSetWindow (Some win) => Some win
  | _ => cur
  end.

Definition last_window (cs : list Call) (init : option Window)
  : option Window :=
  fold_left window_after cs init.

(** The [launching] flag a call leaves, given the one before. *)
Definition launching_after (cur : bool) (c : Call) : bool :=
  match c with
  | CallSetProperty pspec value =>
      if String.eqb (pspec_name pspec) "launching" then value else cur
  | _ => cur
  end.

Definition last_launching (cs : list Call) (init : bool) : bool :=
  fold_left launching_after cs init.

Definition is_log_error (e : Event) : bool :=
  match e with EvLogError _ => true | _ => false end.

Definition is_error_reply (c : Call) : bool :=
  match c with ReplySetActiveError _ => true | _ => false end.

(** What goes over the bus for a record whose id is [aid]: lookups use the
    name and path derived from the id, calls go through the activity
    interface, subscriptions are to the bus's own signal. *)
Definition wire_conformant (aid : option string) (e : Event) : Prop :=
  match e with
  | EvGetObject bus_name object_path =>
      exists s, aid = Some s /\ s <> EmptyString /\
                bus_name = Some ("org.laptop.Activity" ++ s) /\
                object_path = "/org/laptop/Activity/" ++ s
  | EvSetActive service _ =>
      iface_dbus_interface service = "org.laptop.Activity"
  | EvAddSignalReceiver signal_name dbus_interface =>
      signal_name = "NameOwnerChanged" /\
      dbus_interface = "org.freedesktop.DBus"
  | EvSessionBus => True
  | EvLogError _ => True
  end.

(** * Properties *)

(** ** Basic facts about the Python primitives *)

Lemma py_str_eq_true (a b : option string) : py_str_eq a b = true <-> a = b.
Proof.
  destruct a as [x|], b as [y|]; simpl; split; intro H;
    try discriminate; try reflexivity.
  - apply String.eqb_eq in H. now subst.
  - injection H as ->. apply String.eqb_refl.
Qed.

Lemma py_str_eq_false (a b : option string) : py_str_eq a b = false <-> a <> b.
Proof.
  split.
  - intros H E. apply py_str_eq_true in E. congruence.
  - intros H. destruct (py_str_eq a b) eqn:E; [|reflexivity].
    apply py_str_eq_true in E. contradiction.
Qed.

Lemma truthy_int_true (n : Z) : truthy_int n = true <-> n <> 0.
Proof.
  unfold truthy_int. destruct (Z.eqb_spec n 0) as [E|E]; simpl; split; intro H.
  - discriminate.
  - contradiction.
  - exact E.
  - reflexivity.
Qed.

Lemma count_events_app (p : Event -> bool) (t u : list Event) :
  count_events p (t ++ u) = (count_events p t + count_events p u)%nat.
Proof. unfold count_events. now rewrite filter_app, length_app. Qed.

(** ** set_window *)

(** C4: [set_window] with an absent window raises [ValueError] and leaves
    the record and the trace as they were; with a window it stores that
    window, keeps every other field and calls no collaborator. *)
Theorem set_window_spec (w : World) :
  set_window None w = (Raise (ValueError "window must be valid"), w) /\
  forall win : Window,
    fst (set_window (Some win) w) = Ok tt /\
    _window (self (snd (set_window (Some win) w))) = Some win /\
    _service (self (snd (set_window (Some win) w))) = _service (self w) /\
    _activity_id (self (snd (set_window (Some win) w))) = _activity_id (self w) /\
    _activity_info (self (snd (set_window (Some win) w))) = _activity_info (self w) /\
    _launch_time (self (snd (set_window (Some win) w))) = _launch_time (self w) /\
    _launching (self (snd (set_window (Some win) w))) = _launching (self w) /\
    trace (snd (set_window (Some win) w)) = trace w.
Proof.
  split.
  - reflexivity.
  - intro win. unfold set_window, update, with_window. simpl.
    repeat split; reflexivity.
Qed.

(** ** set_active *)

Lemma set_active_cases (state : bool) (w : World) :
  (_service (self w) = None -> set_active state w = (Ok tt, w)) /\
  (forall service, _service (self w) = Some service ->
     set_active state w =
       (Ok tt, mkWorld (self w) (trace w ++ [EvSetActive service state]))).
Proof.
  unfold set_active, bind, get_self. split.
  - intros H. rewrite H. reflexivity.
  - intros service H. rewrite H. reflexivity.
Qed.

(** C5: without a service handle [set_active] returns normally and changes
    neither the record nor the trace; with a handle it returns normally
    after exactly one [SetActive] call on that handle. The error reply of
    that call returns normally to the event loop, only appends a log
    entry, and makes no further [SetActive] call. *)
Theorem set_active_spec (state : bool) (w : World) :
  (_service (self w) = None -> set_active state w = (Ok tt, w)) /\
  (forall service, _service (self w) = Some service ->
     set_active state w =
       (Ok tt, mkWorld (self w) (trace w ++ [EvSetActive service state]))) /\
  (forall err,
     _set_active_error err w =
       (Ok tt, mkWorld (self w)
                 (trace w ++ [EvLogError ("set_active() failed: " ++ err)])) /\
     count_events is_set_active (trace (snd (_set_active_error err w))) =
       count_events is_set_active (trace w)).
Proof.
  unfold set_active, bind, get_self. repeat split.
  - intros H. rewrite H. reflexivity.
  - intros service H. rewrite H. reflexivity.
  - unfold _set_active_error, emit. simpl.
    rewrite count_events_app. unfold count_events at 2. simpl.
    apply Nat.add_0_r.
Qed.

Lemma set_active_spec_witness :
  set_active true (mkWorld (sample_record (Some "abc123") None) []) =
    (Ok tt, mkWorld (sample_record (Some "abc123") None) []).
Proof.
  apply (proj1 (set_active_spec true
                  (mkWorld (sample_record (Some "abc123") None) []))).
  reflexivity.
Defined.

(** ** get_icon_color *)

Lemma scan_activities_none (aid : option string) (acts : list PSActivity) :
  scan_activities aid acts = None <->
  forall act, In act acts -> Some (props_id act) <> aid.
Proof.
  induction acts as [|x rest IH]; simpl.
  - split; [intros _ act []|reflexivity].
  - destruct (py_str_eq aid (Some (props_id x))) eqn:E.
    + apply py_str_eq_true in E. split; [discriminate|].
      intros H. exfalso. apply (H x); [now left|now symmetry].
    + apply py_str_eq_false in E. rewrite IH. split.
      * intros H act [<-|Hin]; [congruence|now apply H].
      * intros H act Hin. apply H. now right.
Qed.

Lemma scan_activities_some (aid : option string) (acts : list PSActivity)
    (act : PSActivity) :
  scan_activities aid acts = Some act ->
  exists pre post, acts = (pre ++ act :: post)%list /\
                   Some (props_id act) = aid /\
                   forall x, In x pre -> Some (props_id x) <> aid.
Proof.
  induction acts as [|x rest IH]; simpl; [discriminate|].
  destruct (py_str_eq aid (Some (props_id x))) eqn:E.
  - intros [= <-]. apply py_str_eq_true in E.
    exists [], rest. repeat split; [now symmetry|intros y []].
  - intros H. destruct (IH H) as (pre & post & -> & Hid & Hpre).
    apply py_str_eq_false in E.
    exists (x :: pre), post. repeat split; [exact Hid|].
    intros y [<-|Hin]; [congruence|now apply Hpre].
Qed.

(** C6: when the presence service lists an activity whose id is the
    record's [activity_id], [get_icon_color] is the colour of such an
    entry (the first one in the list); when it lists none, it is the
    profile colour. *)
Theorem get_icon_color_spec (acts : list PSActivity) (profile_color : XoColor)
    (a : HomeActivity) :
  ((exists act, In act acts /\ Some (props_id act) = _activity_id a) ->
   exists pre act post,
     acts = (pre ++ act :: post)%list /\
     Some (props_id act) = _activity_id a /\
     (forall x, In x pre -> Some (props_id x) <> _activity_id a) /\
     get_icon_color acts profile_color a = mkXoColor (props_color act)) /\
  ((forall act, In act acts -> Some (props_id act) <> _activity_id a) ->
   get_icon_color acts profile_color a = profile_color).
Proof.
  unfold get_icon_color. split.
  - intros (act & Hin & Hid).
    destruct (scan_activities (_activity_id a) acts) as [found|] eqn:E.
    + destruct (scan_activities_some _ _ _ E) as (pre & post & Hl & Hf & Hpre).
      exists pre, found, post. auto.
    + exfalso. exact (proj1 (scan_activities_none _ _) E act Hin Hid).
  - intros H. apply scan_activities_none in H. now rewrite H.
Qed.

Lemma get_icon_color_spec_witness :
  get_icon_color [] (mkXoColor "#FF0000,#00FF00")
                 (sample_record (Some "abc123") None) =
    mkXoColor "#FF0000,#00FF00" /\
  exists pre act post,
    [mkPSActivity "zzz" "#000000,#111111";
     mkPSActivity "abc123" "#222222,#333333";
     mkPSActivity "abc123" "#444444,#555555"] = (pre ++ act :: post)%list /\
    Some (props_id act) = Some "abc123" /\
    (forall x, In x pre -> Some (props_id x) <> Some "abc123") /\
    get_icon_color
      [mkPSActivity "zzz" "#000000,#111111";
       mkPSActivity "abc123" "#222222,#333333";
       mkPSActivity "abc123" "#444444,#555555"]
      (mkXoColor "#FF0000,#00FF00")
      (sample_record (Some "abc123") None) = mkXoColor (props_color act).
Proof.
  split.
  - apply (proj2 (get_icon_color_spec [] (mkXoColor "#FF0000,#00FF00")
                    (sample_record (Some "abc123") None))).
    intros act [].
  - apply (proj1 (get_icon_color_spec
                    [mkPSActivity "zzz" "#000000,#111111";
                     mkPSActivity "abc123" "#222222,#333333";
                     mkPSActivity "abc123" "#444444,#555555"]
                    (mkXoColor "#FF0000,#00FF00")
                    (sample_record (Some "abc123") None))).
    exists (mkPSActivity "abc123" "#444444,#555555"). split.
    + simpl. right. right. left. reflexivity.
    + reflexivity.
Defined.

(** ** get_type and is_journal *)

(** C7: [is_journal] is true exactly when [get_type] is the journal bundle
    id, which is exactly when a window is attached and the window manager
    resolves that window to the journal bundle id; without a window
    [get_type] is absent. *)
Theorem is_journal_spec (wm_get_bundle_id : Window -> option string)
    (a : HomeActivity) :
  (is_journal wm_get_bundle_id a = true <->
   get_type wm_get_bundle_id a = Some "org.laptop.JournalActivity") /\
  (is_journal wm_get_bundle_id a = true <->
   exists w, _window a = Some w /\
             wm_get_bundle_id w = Some "org.laptop.JournalActivity") /\
  (_window a = None -> get_type wm_get_bundle_id a = None).
Proof.
  unfold is_journal. split; [apply py_str_eq_true|]. split.
  - rewrite py_str_eq_true. unfold get_type.
    destruct (_window a) as [w|]; split.
    + intros H. now exists w.
    + intros (w' & [= <-] & H). exact H.
    + discriminate.
    + intros (w' & Hw & _). discriminate.
  - unfold get_type. now intros ->.
Qed.

Lemma is_journal_spec_witness :
  get_type journal_wm (sample_record None None) = None /\
  is_journal journal_wm (sample_record None (Some (sample_window 1))) = true.
Proof.
  split.
  - apply (proj2 (proj2 (is_journal_spec journal_wm (sample_record None None)))).
    reflexivity.
  - apply (proj1 (is_journal_spec journal_wm
                    (sample_record None (Some (sample_window 1))))).
    reflexivity.
Defined.

(** ** Construction *)

Lemma retrieve_service_nonempty (bus : Bus) (w : World) (c : ascii) (r : string) :
  _activity_id (self w) = Some (String c r) ->
  _retrieve_service bus w =
    (Ok tt,
     mkWorld
       (with_service
          (match bus (Some (_SERVICE_NAME ++ String c r))
                     (_SERVICE_PATH ++ "/" ++ String c r) with
           | Some proxy => Some (mkInterface proxy _SERVICE_INTERFACE)
           | None => None
           end)
          (self w))
       (trace w ++ [EvSessionBus;
                    EvGetObject (Some (_SERVICE_NAME ++ String c r))
                                (_SERVICE_PATH ++ "/" ++ String c r)])).
Proof.
  intros H. unfold _retrieve_service, bind, get_self, _get_service_name.
  rewrite H. unfold emit, update. cbn [self trace].
  rewrite <- app_assoc. cbn [app].
  destruct (bus _ _); reflexivity.
Qed.

Lemma retrieve_service_empty (bus : Bus) (w : World) :
  truthy_str (_activity_id (self w)) = false ->
  _retrieve_service bus w = (Ok tt, w).
Proof.
  intros H. unfold _retrieve_service, bind, get_self.
  destruct (_activity_id (self w)) as [[|c r]|]; try reflexivity.
  discriminate.
Qed.

(** C8: a record constructed with a non-empty [activity_id], no window and
    type metadata reports the empty title, the metadata's icon path
    (without a window it is not the journal) and the clock reading taken
    by the constructor. *)
Theorem init_without_window_getters
    (wm_get_bundle_id : Window -> option string) (config_data_path : string)
    (bus : Bus) (now : Q) (info : ActivityInfo) (aid : string)
    (tr : list Event) :
  aid <> EmptyString ->
  let r := HomeActivity_new bus now (Some info) (Some aid) None tr in
  fst r = Ok tt /\
  get_title (self (snd r)) = EmptyString /\
  is_journal wm_get_bundle_id (self (snd r)) = false /\
  get_icon_path wm_get_bundle_id config_data_path (self (snd r)) =
    Some (icon info) /\
  get_launch_time (self (snd r)) = now.
Proof.
  intros Hne r. subst r. destruct aid as [|c s]; [contradiction|].
  unfold HomeActivity_new, __init__, bind.
  cbn [update ret self trace].
  rewrite retrieve_service_nonempty with (c := c) (r := s) by reflexivity.
  unfold get_self. cbn [self trace with_service _service].
  destruct (bus _ _); cbn; repeat split; reflexivity.
Qed.

Lemma init_without_window_getters_witness :
  let r := HomeActivity_new no_bus (1194000000 # 1) (Some sample_info)
                            (Some "abc123") None [] in
  fst r = Ok tt /\
  get_title (self (snd r)) = EmptyString /\
  is_journal journal_wm (self (snd r)) = false /\
  get_icon_path journal_wm "/usr/share/sugar/shell" (self (snd r)) =
    Some (icon sample_info) /\
  get_launch_time (self (snd r)) = (1194000000 # 1).
Proof.
  apply (init_without_window_getters journal_wm "/usr/share/sugar/shell"
           no_bus (1194000000 # 1) sample_info "abc123" []).
  discriminate.
Defined.

(** ** equals *)

Lemma equals_absent_window_raises (a activity : HomeActivity) :
  id_undecided a activity ->
  _window a = None ->
  equals a activity =
    Raise (AttributeError "'NoneType' object has no attribute 'get_xid'").
Proof.
  unfold id_undecided, equals, get_activity_id, get_xid.
  intros Hid Hw. rewrite Hid, Hw. reflexivity.
Qed.

(** C9: when at least one of the two ids is empty and the receiver has no
    window, [equals] raises the [AttributeError] of [None.get_xid]
    instead of returning [False]. *)
Theorem equals_receiver_without_window (a activity : HomeActivity) :
  id_undecided a activity ->
  _window a = None ->
  equals a activity =
    Raise (AttributeError "'NoneType' object has no attribute 'get_xid'").
Proof. exact (equals_absent_window_raises a activity). Qed.

Lemma equals_receiver_without_window_witness :
  equals (sample_record None None)
         (sample_record (Some "abc123") (Some (sample_window 7))) =
    Raise (AttributeError "'NoneType' object has no attribute 'get_xid'").
Proof.
  apply (equals_receiver_without_window (sample_record None None)
           (sample_record (Some "abc123") (Some (sample_window 7))));
    reflexivity.
Defined.

(** C1, as the specification words it, fails: two records whose non-empty
    ids differ and whose windows carry the same identifier satisfy the
    specification's condition for equality, and [equals] returns
    [False]; so do two records without ids whose windows both carry the
    identifier 0. *)
Lemma equals_differing_ids_same_window :
  (spec_equals id_differs_same_window_a id_differs_same_window_b /\
   equals id_differs_same_window_a id_differs_same_window_b = Ok false) /\
  (spec_equals no_id_window_zero no_id_window_zero /\
   equals no_id_window_zero no_id_window_zero = Ok false).
Proof.
  split; (split; [|reflexivity]); right; split.
  - intros [_ H]. discriminate H.
  - exists (sample_window 7), (sample_window 7). repeat split.
  - intros [H _]. discriminate H.
  - exists (sample_window 0), (sample_window 0). repeat split.
Qed.

Lemma equals_ids_decide (a b : HomeActivity) :
  truthy_str (_activity_id a) = true ->
  truthy_str (_activity_id b) = true ->
  equals a b = Ok (py_str_eq (_activity_id a) (_activity_id b)).
Proof.
  intros Ha Hb. unfold equals, get_activity_id. now rewrite Ha, Hb.
Qed.

Lemma equals_windows_decide (a b : HomeActivity) (wa wb : Window) :
  id_undecided a b ->
  _window a = Some wa ->
  _window b = Some wb ->
  equals a b =
    Ok (truthy_int (win_get_xid wa) && truthy_int (win_get_xid wb) &&
        (win_get_xid wa =? win_get_xid wb))%bool.
Proof.
  unfold id_undecided, equals, get_activity_id, get_xid.
  intros Hid Ha Hb. rewrite Hid, Ha, Hb.
  destruct (truthy_int (win_get_xid wa)), (truthy_int (win_get_xid wb));
    reflexivity.
Qed.

(** C1, amended: [equals] returns [True] exactly when both records carry
    the same non-empty id, or at least one id is empty and both windows
    exist and carry the same non-zero identifier. Two records with
    non-empty ids are compared by id alone, whatever their windows: equal
    ids give [True], differing ids give [False]. When at least one id is
    empty and both windows exist, differing identifiers give [False]. *)
Theorem equals_spec (a b : HomeActivity) :
  (equals a b = Ok true <->
   same_nonempty_id a b \/ (id_undecided a b /\ same_nonzero_window_id a b)) /\
  (same_nonempty_id a b -> equals a b = Ok true) /\
  (truthy_str (_activity_id a) = true ->
   truthy_str (_activity_id b) = true ->
   _activity_id a <> _activity_id b -> equals a b = Ok false) /\
  (forall wa wb, id_undecided a b ->
     _window a = Some wa -> _window b = Some wb ->
     win_get_xid wa <> win_get_xid wb -> equals a b = Ok false).
Proof.
  assert (Hsame : same_nonempty_id a b -> equals a b = Ok true).
  { intros [Ht He]. rewrite equals_ids_decide; [| exact Ht | now rewrite <- He].
    f_equal. now apply py_str_eq_true. }
  split; [|split; [exact Hsame|split]].
  - split.
    + intros H.
      destruct (truthy_str (_activity_id a) && truthy_str (_activity_id b))%bool
        eqn:Hid.
      * left. apply andb_prop in Hid as [Ha Hb].
        rewrite (equals_ids_decide a b Ha Hb) in H. injection H as H.
        apply py_str_eq_true in H. now split.
      * right. split; [exact Hid|].
        destruct (_window a) as [wa|] eqn:Ha.
        2:{ rewrite (equals_absent_window_raises a b Hid Ha) in H.
            discriminate. }
        destruct (_window b) as [wb|] eqn:Hb.
        -- rewrite (equals_windows_decide a b wa wb Hid Ha Hb) in H.
           injection H as H.
           apply andb_prop in H as [H Heq]. apply andb_prop in H as [Hx _].
           exists wa, wb. split; [exact Ha|split; [exact Hb|split]].
           ++ now apply Z.eqb_eq.
           ++ now apply truthy_int_true.
        -- exfalso. unfold equals, get_activity_id, get_xid in H.
           rewrite Hid, Ha, Hb in H.
           destruct (truthy_int (win_get_xid wa)); discriminate.
    + intros [H | [Hid (wa & wb & Ha & Hb & Heq & Hnz)]]; [now apply Hsame|].
      rewrite (equals_windows_decide a b wa wb Hid Ha Hb).
      rewrite <- Heq, Z.eqb_refl.
      apply truthy_int_true in Hnz. now rewrite Hnz.
  - intros Ha Hb Hne. rewrite (equals_ids_decide a b Ha Hb).
    f_equal. now apply py_str_eq_false.
  - intros wa wb Hid Ha Hb Hne.
    rewrite (equals_windows_decide a b wa wb Hid Ha Hb).
    f_equal. apply Z.eqb_neq in Hne. rewrite Hne. apply andb_false_r.
Qed.

Lemma equals_spec_witness :
  equals (sample_record (Some "abc123") None)
         (sample_record (Some "abc123") (Some (sample_window 7))) = Ok true /\
  equals (sample_record None (Some (sample_window 7)))
         (sample_record (Some EmptyString) (Some (sample_window 7))) = Ok true /\
  equals id_differs_same_window_a id_differs_same_window_b = Ok false /\
  equals (sample_record None (Some (sample_window 7)))
         (sample_record (Some "abc123") (Some (sample_window 8))) = Ok false.
Proof.
  split; [|split; [|split]].
  - apply (proj1 (proj2 (equals_spec _ _))). split; reflexivity.
  - apply (proj1 (equals_spec _ _)). right. split; [reflexivity|].
    exists (sample_window 7), (sample_window 7).
    repeat split. discriminate.
  - apply (proj1 (proj2 (proj2 (equals_spec _ _)))); try reflexivity.
    discriminate.
  - apply (proj2 (proj2 (proj2 (equals_spec _ _)))
             (sample_window 7) (sample_window 8)); try reflexivity.
    discriminate.
Defined.

(** ** Construction with an empty id *)

Lemma new_with_empty_id (bus : Bus) (now : Q) (info : option ActivityInfo)
    (aid : option string) (window : option Window) (tr : list Event) :
  truthy_str aid = false ->
  HomeActivity_new bus now info aid window tr =
    (Ok tt,
     mkWorld (mkHomeActivity window None aid info now false)
             (tr ++ [EvSessionBus;
                     EvAddSignalReceiver "NameOwnerChanged"
                                         "org.freedesktop.DBus"])).
Proof.
  intros H. unfold HomeActivity_new, __init__, bind.
  cbn [update ret self trace].
  destruct window as [win|]; cbn [set_window update with_window ret self trace
                                  _service _activity_id _activity_info
                                  _launch_time _launching];
    (rewrite retrieve_service_empty by exact H);
    unfold get_self, emit, with_window; cbn [self trace _service];
    rewrite <- app_assoc; reflexivity.
Qed.

(** C2, as the specification words it, fails: constructing with an empty
    id and no window subscribes to the bus's ownership notifications. *)
Lemma init_empty_id_subscribes :
  count_events is_add_signal_receiver
    (trace (snd (HomeActivity_new full_bus (1194000000 # 1) (Some sample_info)
                                  (Some EmptyString) None []))) = 1%nat /\
  count_events is_add_signal_receiver
    (trace (snd (HomeActivity_new no_bus (1194000000 # 1) None
                                  None None []))) = 1%nat.
Proof. split; reflexivity. Qed.

(** C2, amended: constructing with an empty [activity_id] and no window
    succeeds, never asks the bus for the remote object, leaves the
    service handle absent, and subscribes once to the bus's
    [NameOwnerChanged] signal. *)
Theorem init_empty_id_no_lookup (bus : Bus) (now : Q)
    (info : option ActivityInfo) (aid : option string) (tr : list Event) :
  truthy_str aid = false ->
  let r := HomeActivity_new bus now info aid None tr in
  fst r = Ok tt /\
  _service (self (snd r)) = None /\
  trace (snd r) =
    (tr ++ [EvSessionBus;
            EvAddSignalReceiver "NameOwnerChanged" "org.freedesktop.DBus"])%list /\
  count_events is_get_object (trace (snd r)) = count_events is_get_object tr /\
  count_events is_add_signal_receiver (trace (snd r)) =
    S (count_events is_add_signal_receiver tr).
Proof.
  intros H r. subst r. rewrite (new_with_empty_id bus now info aid None tr H).
  cbn [fst snd self trace _service]. repeat split.
  - rewrite count_events_app. unfold count_events at 2. simpl.
    apply Nat.add_0_r.
  - rewrite count_events_app. unfold count_events at 2. simpl.
    apply Nat.add_1_r.
Qed.

Lemma init_empty_id_no_lookup_witness :
  let r := HomeActivity_new full_bus (1194000000 # 1) (Some sample_info)
                            (Some EmptyString) None [] in
  fst r = Ok tt /\
  _service (self (snd r)) = None /\
  trace (snd r) =
    ([] ++ [EvSessionBus;
            EvAddSignalReceiver "NameOwnerChanged" "org.freedesktop.DBus"])%list /\
  count_events is_get_object (trace (snd r)) = count_events is_get_object [] /\
  count_events is_add_signal_receiver (trace (snd r)) =
    S (count_events is_add_signal_receiver []).
Proof.
  apply (init_empty_id_no_lookup full_bus (1194000000 # 1) (Some sample_info)
           (Some EmptyString) []).
  reflexivity.
Defined.

(** ** The ownership-change callback *)

Lemma get_service_name_nonempty (a : HomeActivity) (c : ascii) (r : string) :
  _activity_id a = Some (String c r) ->
  _get_service_name a = Some (_SERVICE_NAME ++ String c r).
Proof. unfold _get_service_name. now intros ->. Qed.

Lemma get_service_name_empty (a : HomeActivity) :
  truthy_str (_activity_id a) = false -> _get_service_name a = None.
Proof.
  unfold _get_service_name.
  destruct (_activity_id a) as [[|c r]|]; try reflexivity. discriminate.
Qed.

Lemma get_service_name_some (a : HomeActivity) (name : string) :
  _get_service_name a = Some name ->
  exists c r, _activity_id a = Some (String c r) /\
              name = _SERVICE_NAME ++ String c r.
Proof.
  unfold _get_service_name.
  destruct (_activity_id a) as [[|c r]|]; try discriminate.
  intros [= <-]. now exists c, r.
Qed.

Lemma name_owner_changed_cb_match (bus : Bus) (old new : string) (w : World)
    (c : ascii) (r : string) :
  _activity_id (self w) = Some (String c r) ->
  _name_owner_changed_cb bus (_SERVICE_NAME ++ String c r) old new w =
    (Ok tt,
     match bus (Some (_SERVICE_NAME ++ String c r))
               (_SERVICE_PATH ++ "/" ++ String c r) with
     | Some proxy =>
         mkWorld (with_service (Some (mkInterface proxy _SERVICE_INTERFACE))
                               (self w))
                 (trace w ++
                  [EvSessionBus;
                   EvGetObject (Some (_SERVICE_NAME ++ String c r))
                               (_SERVICE_PATH ++ "/" ++ String c r);
                   EvSetActive (mkInterface proxy _SERVICE_INTERFACE) true])
     | None =>
         mkWorld (with_service None (self w))
                 (trace w ++
                  [EvSessionBus;
                   EvGetObject (Some (_SERVICE_NAME ++ String c r))
                               (_SERVICE_PATH ++ "/" ++ String c r)])
     end).
Proof.
  intros Hid. unfold _name_owner_changed_cb, bind, get_self.
  rewrite (get_service_name_nonempty _ c r Hid).
  rewrite (proj2 (py_str_eq_true _ _) eq_refl).
  rewrite retrieve_service_nonempty with (c := c) (r := r) by exact Hid.
  unfold set_active, bind, get_self, emit.
  cbn [self trace with_service _service].
  destruct (bus _ _); cbn [self trace]; [|reflexivity].
  rewrite <- app_assoc. reflexivity.
Qed.

Lemma name_owner_changed_cb_no_name (bus : Bus) (name old new : string)
    (w : World) :
  truthy_str (_activity_id (self w)) = false ->
  _name_owner_changed_cb bus name old new w = (Ok tt, w).
Proof.
  intros H. unfold _name_owner_changed_cb, bind, get_self.
  now rewrite (get_service_name_empty _ H).
Qed.

(** C3, as the specification words it, fails: on a matching notification
    the callback leaves a set [launching] flag set, and when the lookup
    fails again it makes no [SetActive] call and the service stays
    absent. *)
Lemma name_owner_changed_keeps_launching :
  _service (self launching_world) = None /\
  _get_service_name (self launching_world) = Some "org.laptop.Activityabc123" /\
  fst (_name_owner_changed_cb full_bus "org.laptop.Activityabc123"
         EmptyString ":1.42" launching_world) = Ok tt /\
  _launching (self (snd (_name_owner_changed_cb full_bus
                           "org.laptop.Activityabc123" EmptyString ":1.42"
                           launching_world))) = true /\
  _service (self (snd (_name_owner_changed_cb no_bus
                         "org.laptop.Activityabc123" EmptyString ":1.42"
                         launching_world))) = None /\
  count_events is_set_active
    (trace (snd (_name_owner_changed_cb no_bus
                   "org.laptop.Activityabc123" EmptyString ":1.42"
                   launching_world))) = 0%nat.
Proof. repeat split. Qed.

(** C3, amended: for a record without a service handle, a notification
    whose name is the record's well-known name makes the callback ask the
    bus again for the remote object. When the bus answers, the handle is
    bound to the answer and [SetActive(True)] is called on it; when the
    lookup fails, the handle stays absent and no call is made. The
    callback returns normally and leaves the [launching] flag and every
    other field as they were. *)
Theorem name_owner_changed_matching (bus : Bus) (name old new : string)
    (w : World) :
  _service (self w) = None ->
  _get_service_name (self w) = Some name ->
  let r := _name_owner_changed_cb bus name old new w in
  exists aid,
    _activity_id (self w) = Some aid /\
    name = _SERVICE_NAME ++ aid /\
    fst r = Ok tt /\
    _launching (self (snd r)) = _launching (self w) /\
    _window (self (snd r)) = _window (self w) /\
    _activity_id (self (snd r)) = _activity_id (self w) /\
    _activity_info (self (snd r)) = _activity_info (self w) /\
    _launch_time (self (snd r)) = _launch_time (self w) /\
    match bus (Some name) (_SERVICE_PATH ++ "/" ++ aid) with
    | Some proxy =>
        _service (self (snd r)) = Some (mkInterface proxy _SERVICE_INTERFACE) /\
        trace (snd r) =
          (trace w ++
           [EvSessionBus;
            EvGetObject (Some name) (_SERVICE_PATH ++ "/" ++ aid);
            EvSetActive (mkInterface proxy _SERVICE_INTERFACE) true])%list
    | None =>
        _service (self (snd r)) = None /\
        trace (snd r) =
          (trace w ++
           [EvSessionBus;
            EvGetObject (Some name) (_SERVICE_PATH ++ "/" ++ aid)])%list
    end.
Proof.
  intros _ Hn r. subst r.
  destruct (get_service_name_some _ _ Hn) as (c & s & Hid & ->).
  exists (String c s). rewrite (name_owner_changed_cb_match bus old new w c s Hid).
  split; [exact Hid|]. split; [reflexivity|].
  destruct (bus _ _); cbn [fst snd self trace with_service _launching _window
                           _activity_id _activity_info _launch_time _service];
    repeat split; reflexivity.
Qed.

Lemma name_owner_changed_matching_witness :
  let r := _name_owner_changed_cb full_bus "org.laptop.Activityabc123"
             EmptyString ":1.42" launching_world in
  exists aid,
    _activity_id (self launching_world) = Some aid /\
    "org.laptop.Activityabc123" = _SERVICE_NAME ++ aid /\
    fst r = Ok tt /\
    _launching (self (snd r)) = _launching (self launching_world) /\
    _window (self (snd r)) = _window (self launching_world) /\
    _activity_id (self (snd r)) = _activity_id (self launching_world) /\
    _activity_info (self (snd r)) = _activity_info (self launching_world) /\
    _launch_time (self (snd r)) = _launch_time (self launching_world) /\
    match full_bus (Some "org.laptop.Activityabc123")
                   (_SERVICE_PATH ++ "/" ++ aid) with
    | Some proxy =>
        _service (self (snd r)) = Some (mkInterface proxy _SERVICE_INTERFACE) /\
        trace (snd r) =
          (trace launching_world ++
           [EvSessionBus;
            EvGetObject (Some "org.laptop.Activityabc123")
                        (_SERVICE_PATH ++ "/" ++ aid);
            EvSetActive (mkInterface proxy _SERVICE_INTERFACE) true])%list
    | None =>
        _service (self (snd r)) = None /\
        trace (snd r) =
          (trace launching_world ++
           [EvSessionBus;
            EvGetObject (Some "org.laptop.Activityabc123")
                        (_SERVICE_PATH ++ "/" ++ aid)])%list
    end.
Proof.
  apply (name_owner_changed_matching full_bus "org.laptop.Activityabc123"
           EmptyString ":1.42" launching_world); reflexivity.
Defined.

(** ** A record without an id never gets a service *)

Lemma no_service_state_init (bus : Bus) (now : Q) (info : option ActivityInfo)
    (aid : option string) (window : option Window) (tr : list Event) :
  truthy_str aid = false ->
  no_service_state tr (snd (HomeActivity_new bus now info aid window tr)).
Proof.
  intros H. rewrite (new_with_empty_id bus now info aid window tr H).
  split; cbn [snd self trace _activity_id _service]; try easy;
    rewrite count_events_app; unfold count_events at 2; simpl;
    apply Nat.add_0_r.
Qed.

Lemma no_service_state_step (tr : list Event) (c : Call) (w : World) :
  no_service_state tr w -> no_service_state tr (snd (run_call c w)).
Proof.
  intros [Hid Hs Hl Hc]. destruct c as [window|state|pspec value|bus name old new| |err];
    cbn [run_call].
  - destruct window as [win|]; [|now split].
    now split.
  - rewrite (proj1 (set_active_cases state w) Hs). now split.
  - unfold do_set_property. destruct (String.eqb _ _); now split.
  - rewrite (name_owner_changed_cb_no_name bus name old new w Hid). now split.
  - now split.
  - unfold _set_active_error, emit.
    split; cbn [snd self trace]; try assumption;
      rewrite count_events_app; unfold count_events at 2; simpl;
      rewrite Nat.add_0_r; assumption.
Qed.

Lemma no_service_state_run (tr : list Event) (cs : list Call) (w : World) :
  no_service_state tr w -> no_service_state tr (run_calls cs w).
Proof.
  revert w. induction cs as [|c rest IH]; intros w H; cbn [run_calls].
  - exact H.
  - apply IH. now apply no_service_state_step.
Qed.

(** C10: a record constructed with an empty [activity_id] has no
    well-known service name. Whatever the shell and the event loop do to
    it afterwards, every ownership notification leaves it exactly as it
    was, no lookup of the remote object and no [SetActive] call is ever
    made, and the service handle stays absent. *)
Theorem no_service_forever (bus : Bus) (now : Q) (info : option ActivityInfo)
    (aid : option string) (window : option Window) (tr : list Event)
    (calls : list Call) :
  truthy_str aid = false ->
  let w := run_calls calls (snd (HomeActivity_new bus now info aid window tr)) in
  _get_service_name (self w) = None /\
  (forall bus' name old new,
     _name_owner_changed_cb bus' name old new w = (Ok tt, w)) /\
  _service (self w) = None /\
  count_events is_get_object (trace w) = count_events is_get_object tr /\
  count_events is_set_active (trace w) = count_events is_set_active tr.
Proof.
  intros H w.
  assert (Hw : no_service_state tr w).
  { apply no_service_state_run. now apply no_service_state_init. }
  destruct Hw as [Hid Hs Hl Hc]. repeat split; try assumption.
  - now apply get_service_name_empty.
  - intros bus' name old new. now apply name_owner_changed_cb_no_name.
Qed.

Lemma no_service_forever_witness :
  let w := run_calls
             [SignalNameOwnerChanged full_bus "org.laptop.Activity"
                                     EmptyString ":1.42";
              CallSetWindow (Some (sample_window 7));
              CallSetActive true;
              SignalNameOwnerChanged full_bus "org.laptop.Activityabc123"
                                     EmptyString ":1.43"]
             (snd (HomeActivity_new full_bus (1194000000 # 1)
                                    (Some sample_info) (Some EmptyString)
                                    None [])) in
  _get_service_name (self w) = None /\
  (forall bus' name old new,
     _name_owner_changed_cb bus' name old new w = (Ok tt, w)) /\
  _service (self w) = None /\
  count_events is_get_object (trace w) = count_events is_get_object [] /\
  count_events is_set_active (trace w) = count_events is_set_active [].
Proof.
  apply (no_service_forever full_bus (1194000000 # 1) (Some sample_info)
           (Some EmptyString) None []).
  reflexivity.
Defined.

(** * Further properties of the class *)

(** ** Construction, for every input *)

Lemma new_with_nonempty_id (bus : Bus) (now : Q) (info : option ActivityInfo)
    (c : ascii) (r : string) (window : option Window) (tr : list Event) :
  HomeActivity_new bus now info (Some (String c r)) window tr =
    (Ok tt,
     match bus (Some (_SERVICE_NAME ++ String c r))
               (_SERVICE_PATH ++ "/" ++ String c r) with
     | Some proxy =>
         mkWorld (mkHomeActivity window
                    (Some (mkInterface proxy _SERVICE_INTERFACE))
                    (Some (String c r)) info now false)
                 (tr ++ [EvSessionBus;
                         EvGetObject (Some (_SERVICE_NAME ++ String c r))
                                     (_SERVICE_PATH ++ "/" ++ String c r)])
     | None =>
         mkWorld (mkHomeActivity window None (Some (String c r)) info now false)
                 (tr ++ [EvSessionBus;
                         EvGetObject (Some (_SERVICE_NAME ++ String c r))
                                     (_SERVICE_PATH ++ "/" ++ String c r);
                         EvSessionBus;
                         EvAddSignalReceiver "NameOwnerChanged"
                                             "org.freedesktop.DBus"])
     end).
Proof.
  unfold HomeActivity_new, __init__, bind.
  cbn [update ret self trace].
  destruct window as [win|];
    cbn [set_window update with_window ret self trace _service _activity_id
         _activity_info _launch_time _launching];
    (rewrite retrieve_service_nonempty with (c := c) (r := r) by reflexivity);
    unfold get_self, emit, with_service;
    cbn [self trace _service _window _activity_id _activity_info _launch_time
         _launching];
    destruct (bus _ _); cbn [self trace]; try reflexivity;
    rewrite <- !app_assoc; reflexivity.
Qed.


(** X2: constructing with a non-empty id asks the bus exactly once, for the
    name ["org.laptop.Activity" + id] at the path
    ["/org/laptop/Activity/" + id]. When the bus answers, the handle is
    that proxy under the interface ["org.laptop.Activity"] and nothing is
    subscribed; when the lookup fails, the handle is absent and the record
    subscribes to [NameOwnerChanged]. *)
Theorem init_nonempty_id (bus : Bus) (now : Q) (info : option ActivityInfo)
    (aid : string) (window : option Window) (tr : list Event) :
  aid <> EmptyString ->
  let r := HomeActivity_new bus now info (Some aid) window tr in
  match bus (Some ("org.laptop.Activity" ++ aid))
            ("/org/laptop/Activity/" ++ aid) with
  | Some proxy =>
      get_service (self (snd r)) =
        Some (mkInterface proxy "org.laptop.Activity") /\
      trace (snd r) =
        (tr ++ [EvSessionBus;
                EvGetObject (Some ("org.laptop.Activity" ++ aid)%string)
                            ("/org/laptop/Activity/" ++ aid)%string])%list
  | None =>
      get_service (self (snd r)) = None /\
      trace (snd r) =
        (tr ++ [EvSessionBus;
                EvGetObject (Some ("org.laptop.Activity" ++ aid)%string)
                            ("/org/laptop/Activity/" ++ aid)%string;
                EvSessionBus;
                EvAddSignalReceiver "NameOwnerChanged"
                                    "org.freedesktop.DBus"])%list
  end.
Proof.
  intros Hne r. subst r. destruct aid as [|c s]; [contradiction|].
  rewrite new_with_nonempty_id.
  change (_SERVICE_PATH ++ "/" ++ String c s)
    with ("/org/laptop/Activity/" ++ String c s).
  change (_SERVICE_NAME ++ String c s)
    with ("org.laptop.Activity" ++ String c s).
  destruct (bus _ _); split; reflexivity.
Qed.

Lemma init_nonempty_id_witness :
  get_service
    (self (snd (HomeActivity_new full_bus (1194000000 # 1) (Some sample_info)
                                 (Some "abc123") None []))) =
    Some (mkInterface
            (mkProxyObject (Some "org.laptop.Activityabc123")
                           "/org/laptop/Activity/abc123")
            "org.laptop.Activity") /\
  trace (snd (HomeActivity_new full_bus (1194000000 # 1) (Some sample_info)
                               (Some "abc123") None [])) =
    [EvSessionBus;
     EvGetObject (Some "org.laptop.Activityabc123")
                 "/org/laptop/Activity/abc123"].
Proof.
  apply (init_nonempty_id full_bus (1194000000 # 1) (Some sample_info)
           "abc123" None []).
  discriminate.
Defined.

(** ** The callback, case by case *)

Lemma name_owner_changed_cb_other (bus : Bus) (name old new : string)
    (w : World) :
  Some name <> _get_service_name (self w) ->
  _name_owner_changed_cb bus name old new w = (Ok tt, w).
Proof.
  intros H. unfold _name_owner_changed_cb, bind, get_self.
  now rewrite (proj2 (py_str_eq_false _ _) H).
Qed.

(** Either the notification is ignored, or the record has a non-empty id,
    the name is the one derived from it, and the lookup is made again. *)
Lemma name_owner_changed_cb_cases (bus : Bus) (name old new : string)
    (w : World) :
  _name_owner_changed_cb bus name old new w = (Ok tt, w) \/
  exists c r,
    _activity_id (self w) = Some (String c r) /\
    name = _SERVICE_NAME ++ String c r /\
    _name_owner_changed_cb bus name old new w =
      (Ok tt,
       match bus (Some (_SERVICE_NAME ++ String c r))
                 (_SERVICE_PATH ++ "/" ++ String c r) with
       | Some proxy =>
           mkWorld (with_service (Some (mkInterface proxy _SERVICE_INTERFACE))
                                 (self w))
                   (trace w ++
                    [EvSessionBus;
                     EvGetObject (Some (_SERVICE_NAME ++ String c r))
                                 (_SERVICE_PATH ++ "/" ++ String c r);
                     EvSetActive (mkInterface proxy _SERVICE_INTERFACE) true])
       | None =>
           mkWorld (with_service None (self w))
                   (trace w ++
                    [EvSessionBus;
                     EvGetObject (Some (_SERVICE_NAME ++ String c r))
                                 (_SERVICE_PATH ++ "/" ++ String c r)])
       end).
Proof.
  destruct (py_str_eq (Some name) (_get_service_name (self w))) eqn:E.
  - right. apply py_str_eq_true in E. symmetry in E.
    destruct (get_service_name_some _ _ E) as (c & r & Hid & ->).
    exists c, r. split; [exact Hid|]. split; [reflexivity|].
    now apply name_owner_changed_cb_match.
  - left. apply name_owner_changed_cb_other. now apply py_str_eq_false.
Qed.

(** ** What one call does to the fields *)

Lemma run_call_fields (c : Call) (w : World) :
  _window (self (snd (run_call c w))) = window_after (_window (self w)) c /\
  _launching (self (snd (run_call c w))) =
    launching_after (_launching (self w)) c /\
  _activity_id (self (snd (run_call c w))) = _activity_id (self w) /\
  _activity_info (self (snd (run_call c w))) = _activity_info (self w) /\
  _launch_time (self (snd (run_call c w))) = _launch_time (self w).
Proof.
  destruct c as [window|state|pspec value|bus name old new| |err];
    cbn [run_call window_after launching_after].
  - destruct window as [win|]; repeat split.
  - unfold set_active, bind, get_self.
    destruct (_service (self w)); repeat split.
  - unfold do_set_property. destruct (String.eqb _ _); repeat split.
  - destruct (name_owner_changed_cb_cases bus name old new w)
      as [-> | (ch & r & _ & _ & ->)]; [repeat split|].
    destruct (bus _ _); repeat split.
  - repeat split.
  - repeat split.
Qed.

Lemma last_window_some (cs : list Call) (win : Window) :
  exists win', last_window cs (Some win) = Some win'.
Proof.
  revert win. induction cs as [|c rest IH]; intros win.
  - now exists win.
  - cbn [last_window fold_left]. fold (last_window rest).
    destruct c as [[win2|]| | | | |]; cbn [window_after]; apply IH.
Qed.

Lemma run_calls_window (cs : list Call) (w : World) :
  _window (self (run_calls cs w)) = last_window cs (_window (self w)).
Proof.
  unfold last_window. revert w.
  induction cs as [|c rest IH]; intros w; cbn [run_calls fold_left].
  - reflexivity.
  - rewrite IH. now rewrite (proj1 (run_call_fields c w)).
Qed.

(** X3: after any sequence of calls the attached window is the one of the
    last [set_window] call that was given a window; failed
    [set_window(None)] calls and every other call leave it alone. *)
Theorem window_last_set_wins (cs : list Call) (w : World) :
  get_window (self (run_calls cs w)) = last_window cs (get_window (self w)).
Proof. exact (run_calls_window cs w). Qed.

(** X4: once a window is attached the record never loses it: after any
    sequence of calls a window is attached, and [get_xid], [get_pid] and
    [get_title] answer from it without raising. *)
Theorem window_stays_attached (cs : list Call) (w : World) (win : Window) :
  get_window (self w) = Some win ->
  exists win',
    get_window (self (run_calls cs w)) = Some win' /\
    get_xid (self (run_calls cs w)) = Ok (win_get_xid win') /\
    get_pid (self (run_calls cs w)) = Ok (win_get_pid win') /\
    get_title (self (run_calls cs w)) = win_get_name win'.
Proof.
  intros H. unfold get_window in H.
  destruct (last_window_some cs win) as (win' & Hl).
  exists win'.
  assert (Hw : _window (self (run_calls cs w)) = Some win').
  { pose proof (run_calls_window cs w) as E.
    rewrite H in E. now rewrite E. }
  unfold get_window, get_xid, get_pid, get_title. rewrite Hw. repeat split.
Qed.

Lemma window_stays_attached_witness :
  exists win',
    get_window
      (self (run_calls [CallSetWindow None; CallSetActive true]
               (mkWorld (sample_record None (Some (sample_window 7))) []))) =
      Some win' /\
    get_xid
      (self (run_calls [CallSetWindow None; CallSetActive true]
               (mkWorld (sample_record None (Some (sample_window 7))) []))) =
      Ok (win_get_xid win') /\
    get_pid
      (self (run_calls [CallSetWindow None; CallSetActive true]
               (mkWorld (sample_record None (Some (sample_window 7))) []))) =
      Ok (win_get_pid win') /\
    get_title
      (self (run_calls [CallSetWindow None; CallSetActive true]
               (mkWorld (sample_record None (Some (sample_window 7))) []))) =
      win_get_name win'.
Proof.
  apply (window_stays_attached [CallSetWindow None; CallSetActive true]
           (mkWorld (sample_record None (Some (sample_window 7))) [])
           (sample_window 7)).
  reflexivity.
Defined.

(** X5: no call changes the identity of a record: after any sequence of
    calls the activity id, the type metadata and the launch time are the
    ones the record had before. *)
Theorem identity_fields_immutable (cs : list Call) (w : World) :
  get_activity_id (self (run_calls cs w)) = get_activity_id (self w) /\
  _activity_info (self (run_calls cs w)) = _activity_info (self w) /\
  get_launch_time (self (run_calls cs w)) = get_launch_time (self w).
Proof.
  unfold get_activity_id, get_launch_time. revert w.
  induction cs as [|c rest IH]; intros w; cbn [run_calls].
  - repeat split.
  - destruct (IH (snd (run_call c w))) as (H1 & H2 & H3).
    destruct (run_call_fields c w) as (_ & _ & E1 & E2 & E3).
    rewrite H1, H2, H3. now rewrite E1, E2, E3.
Qed.

(** X6: the [launching] property reads back the value of the last
    [do_set_property] call made under the name ['launching']; writes
    under any other name, and every other call, leave it alone, and a
    read under any other name answers [None]. *)
Theorem launching_last_write_wins (cs : list Call) (w : World)
    (pspec : ParamSpec) :
  do_get_property pspec (self (run_calls cs w)) =
    if String.eqb (pspec_name pspec) "launching"
    then Some (last_launching cs (_launching (self w)))
    else None.
Proof.
  unfold do_get_property. destruct (String.eqb _ _); [|reflexivity].
  f_equal. unfold last_launching. revert w.
  induction cs as [|c rest IH]; intros w; cbn [run_calls fold_left].
  - reflexivity.
  - rewrite IH. now rewrite (proj1 (proj2 (run_call_fields c w))).
Qed.

(** ** What one call adds to the trace *)

Lemma run_call_trace (c : Call) (w : World) :
  exists new,
    trace (snd (run_call c w)) = (trace w ++ new)%list /\
    count_events is_add_signal_receiver new = 0%nat /\
    count_events is_log_error new = (if is_error_reply c then 1 else 0)%nat.
Proof.
  destruct c as [window|state|pspec value|bus name old new| |err];
    cbn [run_call is_error_reply].
  - exists []. rewrite app_nil_r. destruct window; repeat split.
  - unfold set_active, bind, get_self. destruct (_service (self w)) as [svc|].
    + exists [EvSetActive svc state]. repeat split.
    + exists []. rewrite app_nil_r. repeat split.
  - exists []. rewrite app_nil_r. unfold do_set_property.
    destruct (String.eqb _ _); repeat split.
  - destruct (name_owner_changed_cb_cases bus name old new w)
      as [-> | (ch & r & _ & _ & ->)].
    + exists []. rewrite app_nil_r. repeat split.
    + destruct (bus _ _) as [proxy|]; eexists; repeat split.
  - exists []. rewrite app_nil_r. repeat split.
  - eexists. repeat split.
Qed.

(** X7: the subscription to the bus is made by the constructor only: a
    sequence of calls extends the trace (nothing already recorded is
    changed) and adds no [add_signal_receiver] call to it. *)
Theorem no_subscription_after_construction (cs : list Call) (w : World) :
  exists new,
    trace (run_calls cs w) = (trace w ++ new)%list /\
    count_events is_add_signal_receiver new = 0%nat.
Proof.
  revert w. induction cs as [|c rest IH]; intros w; cbn [run_calls].
  - exists []. now rewrite app_nil_r.
  - destruct (IH (snd (run_call c w))) as (new2 & E2 & H2).
    destruct (run_call_trace c w) as (new1 & E1 & H1 & _).
    exists (new1 ++ new2)%list. split.
    + now rewrite E2, E1, app_assoc.
    + now rewrite count_events_app, H1, H2.
Qed.

(** X8: every error reply of a [SetActive] call is logged exactly once
    and nothing else is logged: a sequence of calls adds as many log
    entries as it contains error replies. *)
Theorem one_log_entry_per_error_reply (cs : list Call) (w : World) :
  count_events is_log_error (trace (run_calls cs w)) =
    (count_events is_log_error (trace w) +
     length (filter is_error_reply cs))%nat.
Proof.
  revert w. induction cs as [|c rest IH]; intros w; cbn [run_calls filter].
  - now rewrite Nat.add_0_r.
  - rewrite IH. destruct (run_call_trace c w) as (new1 & E1 & _ & H1).
    rewrite E1, count_events_app, H1.
    destruct (is_error_reply c); cbn [length]; lia.
Qed.

(** X9: of all calls the shell can make on a record, only
    [set_window(None)] raises, and it leaves the record and the trace as
    they were; every other call, notification and reply returns
    normally. *)
Theorem only_set_window_none_raises (c : Call) (w : World) :
  (c = CallSetWindow None ->
   run_call c w = (Raise (ValueError "window must be valid"), w)) /\
  (c <> CallSetWindow None -> fst (run_call c w) = Ok tt).
Proof.
  split.
  - intros ->. reflexivity.
  - intros Hne.
    destruct c as [[win|]|state|pspec value|bus name old new| |err];
      cbn [run_call]; try reflexivity.
    + contradiction.
    + unfold set_active, bind, get_self.
      destruct (_service (self w)); reflexivity.
    + unfold do_set_property. destruct (String.eqb _ _); reflexivity.
    + destruct (name_owner_changed_cb_cases bus name old new w)
        as [-> | (ch & r & _ & _ & ->)]; reflexivity.
Qed.

Lemma only_set_window_none_raises_witness :
  run_call (CallSetWindow None)
           (mkWorld (sample_record (Some "abc123") None) []) =
    (Raise (ValueError "window must be valid"),
     mkWorld (sample_record (Some "abc123") None) []) /\
  fst (run_call (SignalNameOwnerChanged no_bus "org.laptop.Activityabc123"
                                        EmptyString ":1.42")
                (mkWorld (sample_record (Some "abc123") None) [])) = Ok tt.
Proof.
  split.
  - apply (proj1 (only_set_window_none_raises (CallSetWindow None)
                    (mkWorld (sample_record (Some "abc123") None) []))).
    reflexivity.
  - apply (proj2 (only_set_window_none_raises
                    (SignalNameOwnerChanged no_bus "org.laptop.Activityabc123"
                                            EmptyString ":1.42")
                    (mkWorld (sample_record (Some "abc123") None) []))).
    discriminate.
Defined.

(** ** What goes over the bus *)

Lemma run_call_wire (c : Call) (w : World) :
  (forall svc, _service (self w) = Some svc ->
               iface_dbus_interface svc = "org.laptop.Activity") ->
  (forall svc, _service (self (snd (run_call c w))) = Some svc ->
               iface_dbus_interface svc = "org.laptop.Activity") /\
  exists new,
    trace (snd (run_call c w)) = (trace w ++ new)%list /\
    Forall (wire_conformant (_activity_id (self w))) new.
Proof.
  intros Hs.
  destruct c as [window|state|pspec value|bus name old new| |err];
    cbn [run_call].
  - split.
    + destruct window; exact Hs.
    + exists []. rewrite app_nil_r. destruct window; split; constructor.
  - unfold set_active, bind, get_self.
    destruct (_service (self w)) as [svc|] eqn:E; (split; [now rewrite <- E in Hs|]).
    + exists [EvSetActive svc state]. split; [reflexivity|].
      constructor; [|constructor]. now apply Hs.
    + exists []. rewrite app_nil_r. split; constructor.
  - unfold do_set_property. split.
    + destruct (String.eqb _ _); exact Hs.
    + exists []. rewrite app_nil_r. destruct (String.eqb _ _); split; constructor.
  - destruct (name_owner_changed_cb_cases bus name old new w)
      as [-> | (ch & r & Hid & _ & ->)].
    + split; [exact Hs|]. exists []. rewrite app_nil_r. split; constructor.
    + assert (Hlookup :
        wire_conformant (_activity_id (self w))
          (EvGetObject (Some (_SERVICE_NAME ++ String ch r))
                       (_SERVICE_PATH ++ "/" ++ String ch r))).
      { exists (String ch r). repeat split; [exact Hid|discriminate]. }
      destruct (bus _ _) as [proxy|]; cbn [snd self trace with_service _service].
      * split; [now intros svc [= <-]|].
        eexists. split; [reflexivity|].
        repeat constructor. exact Hlookup.
      * split; [discriminate|].
        eexists. split; [reflexivity|].
        repeat constructor. exact Hlookup.
  - split; [exact Hs|]. exists []. rewrite app_nil_r. split; constructor.
  - split; [exact Hs|]. eexists. split; [reflexivity|]. repeat constructor.
Qed.

Lemma run_calls_wire (cs : list Call) (w : World) :
  (forall svc, _service (self w) = Some svc ->
               iface_dbus_interface svc = "org.laptop.Activity") ->
  (forall svc, _service (self (run_calls cs w)) = Some svc ->
               iface_dbus_interface svc = "org.laptop.Activity") /\
  exists new,
    trace (run_calls cs w) = (trace w ++ new)%list /\
    Forall (wire_conformant (_activity_id (self w))) new.
Proof.
  revert w. induction cs as [|c rest IH]; intros w Hs; cbn [run_calls].
  - split; [exact Hs|]. exists []. rewrite app_nil_r. split; constructor.
  - destruct (run_call_wire c w Hs) as (Hs1 & new1 & E1 & F1).
    destruct (IH _ Hs1) as (Hs2 & new2 & E2 & F2).
    split; [exact Hs2|].
    exists (new1 ++ new2)%list. split.
    + now rewrite E2, E1, app_assoc.
    + apply Forall_app. split; [exact F1|].
      now rewrite (proj1 (proj2 (proj2 (run_call_fields c w)))) in F2.
Qed.

Lemma new_wire (bus : Bus) (now : Q) (info : option ActivityInfo)
    (aid : option string) (window : option Window) (tr : list Event) :
  _activity_id (self (snd (HomeActivity_new bus now info aid window tr))) = aid /\
  (forall svc,
     _service (self (snd (HomeActivity_new bus now info aid window tr))) =
       Some svc ->
     iface_dbus_interface svc = "org.laptop.Activity") /\
  exists new,
    trace (snd (HomeActivity_new bus now info aid window tr)) =
      (tr ++ new)%list /\
    Forall (wire_conformant aid) new.
Proof.
  destruct (truthy_str aid) eqn:Hid.
  - destruct aid as [[|c s]|]; try discriminate.
    rewrite new_with_nonempty_id.
    assert (Hlookup :
      wire_conformant (Some (String c s))
        (EvGetObject (Some (_SERVICE_NAME ++ String c s))
                     (_SERVICE_PATH ++ "/" ++ String c s))).
    { exists (String c s). repeat split. discriminate. }
    destruct (bus _ _) as [proxy|]; cbn [snd self trace _activity_id _service].
    + split; [reflexivity|]. split; [now intros svc [= <-]|].
      eexists. split; [reflexivity|]. repeat constructor. exact Hlookup.
    + split; [reflexivity|]. split; [discriminate|].
      eexists. split; [reflexivity|]. repeat constructor. exact Hlookup.
  - rewrite (new_with_empty_id bus now info aid window tr Hid).
    cbn [snd self trace _activity_id _service].
    split; [reflexivity|]. split; [discriminate|].
    eexists. split; [reflexivity|]. repeat constructor.
Qed.

(** X10: everything a record sends over the bus in its life keeps to the
    naming convention: each lookup asks for ["org.laptop.Activity" + id]
    at ["/org/laptop/Activity/" + id] for the record's own non-empty id,
    each [SetActive] call goes through the interface
    ["org.laptop.Activity"], each subscription is to
    [NameOwnerChanged] of ["org.freedesktop.DBus"], and the handle the
    record holds is under the interface ["org.laptop.Activity"]. *)
Theorem bus_traffic_conformant (bus : Bus) (now : Q)
    (info : option ActivityInfo) (aid : option string)
    (window : option Window) (tr : list Event) (cs : list Call) :
  let w := run_calls cs (snd (HomeActivity_new bus now info aid window tr)) in
  (forall svc, get_service (self w) = Some svc ->
               iface_dbus_interface svc = "org.laptop.Activity") /\
  exists new,
    trace w = (tr ++ new)%list /\ Forall (wire_conformant aid) new.
Proof.
  intros w. subst w.
  destruct (new_wire bus now info aid window tr) as (Hid & Hs & new0 & E0 & F0).
  destruct (run_calls_wire cs _ Hs) as (Hs1 & new1 & E1 & F1).
  split; [exact Hs1|].
  exists (new0 ++ new1)%list. split.
  - now rewrite E1, E0, app_assoc.
  - apply Forall_app. split; [exact F0|]. now rewrite Hid in F1.
Qed.

Lemma bus_traffic_conformant_witness :
  let w := run_calls
             [SignalNameOwnerChanged full_bus "org.laptop.Activityabc123"
                                     EmptyString ":1.42";
              CallSetActive false]
             (snd (HomeActivity_new no_bus (1194000000 # 1) (Some sample_info)
                                    (Some "abc123") None [])) in
  (forall svc, get_service (self w) = Some svc ->
               iface_dbus_interface svc = "org.laptop.Activity") /\
  exists new,
    trace w = ([] ++ new)%list /\ Forall (wire_conformant (Some "abc123")) new.
Proof.
  exact (bus_traffic_conformant no_bus (1194000000 # 1) (Some sample_info)
           (Some "abc123") None []
           [SignalNameOwnerChanged full_bus "org.laptop.Activityabc123"
                                   EmptyString ":1.42";
            CallSetActive false]).
Defined.

(** ** More on the callback *)

(** X11: notifications about names other than the record's own
    well-known name are ignored: after any number of them the record and
    the trace are exactly as they were. *)
Theorem name_owner_changed_other_name
    (signals : list (Bus * string * string * string)) (w : World) :
  Forall (fun s => Some (snd (fst (fst s))) <> _get_service_name (self w))
         signals ->
  run_calls
    (map (fun s => SignalNameOwnerChanged (fst (fst (fst s))) (snd (fst (fst s)))
                                          (snd (fst s)) (snd s))
         signals) w = w.
Proof.
  induction 1 as [|[[[bus name] old] new] rest Hname _ IH];
    cbn [map run_calls fst snd run_call].
  - reflexivity.
  - cbn [fst snd] in Hname.
    now rewrite (name_owner_changed_cb_other bus name old new w Hname).
Qed.

Lemma name_owner_changed_other_name_witness :
  run_calls
    (map (fun s => SignalNameOwnerChanged (fst (fst (fst s))) (snd (fst (fst s)))
                                          (snd (fst s)) (snd s))
         [(full_bus, "org.laptop.Activitydef456", EmptyString, ":1.42");
          (full_bus, "org.laptop.Activity", ":1.7", EmptyString)])
    launching_world = launching_world.
Proof.
  apply (name_owner_changed_other_name
           [(full_bus, "org.laptop.Activitydef456", EmptyString, ":1.42");
            (full_bus, "org.laptop.Activity", ":1.7", EmptyString)]
           launching_world).
  repeat constructor; discriminate.
Defined.

(** X12: a record that holds a service handle loses it when a matching
    notification arrives and the lookup then fails: the handle becomes
    absent, no [SetActive] call is made by the callback, and a later
    [set_active] does nothing. *)
Theorem name_owner_changed_drops_handle (bus : Bus) (name old new : string)
    (w : World) (service : Interface) (state : bool) :
  _service (self w) = Some service ->
  _get_service_name (self w) = Some name ->
  (forall object_path, bus (Some name) object_path = None) ->
  let w' := snd (_name_owner_changed_cb bus name old new w) in
  get_service (self w') = None /\
  count_events is_set_active (trace w') =
    count_events is_set_active (trace w) /\
  set_active state w' = (Ok tt, w').
Proof.
  intros _ Hn Hbus w'. subst w'.
  destruct (get_service_name_some _ _ Hn) as (c & r & Hid & ->).
  rewrite (name_owner_changed_cb_match bus old new w c r Hid), Hbus.
  cbn [snd self trace with_service]. unfold get_service. cbn [_service].
  repeat split.
  rewrite count_events_app. unfold count_events at 2. simpl.
  apply Nat.add_0_r.
Qed.

Lemma name_owner_changed_drops_handle_witness :
  let w := snd (HomeActivity_new full_bus (1194000000 # 1) (Some sample_info)
                                 (Some "abc123") None []) in
  let w' := snd (_name_owner_changed_cb no_bus "org.laptop.Activityabc123"
                   ":1.42" EmptyString w) in
  get_service (self w') = None /\
  count_events is_set_active (trace w') =
    count_events is_set_active (trace w) /\
  set_active true w' = (Ok tt, w').
Proof.
  apply (name_owner_changed_drops_handle no_bus "org.laptop.Activityabc123"
           ":1.42" EmptyString
           (snd (HomeActivity_new full_bus (1194000000 # 1) (Some sample_info)
                                  (Some "abc123") None []))
           (mkInterface (mkProxyObject (Some "org.laptop.Activityabc123")
                                       "/org/laptop/Activity/abc123")
                        "org.laptop.Activity")
           true); reflexivity.
Defined.

(** ** More on equality *)

Lemma py_str_eq_sym (a b : option string) : py_str_eq a b = py_str_eq b a.
Proof.
  destruct a as [x|], b as [y|]; simpl; try reflexivity. apply String.eqb_sym.
Qed.

(** X13: between two records that both have a window attached, [equals]
    is symmetric. *)
Theorem equals_symmetric_with_windows (a b : HomeActivity) (wa wb : Window) :
  _window a = Some wa ->
  _window b = Some wb ->
  equals a b = equals b a.
Proof.
  intros Ha Hb.
  destruct (truthy_str (_activity_id a)) eqn:Ta,
           (truthy_str (_activity_id b)) eqn:Tb.
  - rewrite (equals_ids_decide a b Ta Tb), (equals_ids_decide b a Tb Ta).
    f_equal. apply py_str_eq_sym.
  - rewrite (equals_windows_decide a b wa wb), (equals_windows_decide b a wb wa);
      try assumption; try (unfold id_undecided; now rewrite Ta, Tb).
    f_equal. rewrite (Z.eqb_sym (win_get_xid wb)).
    now rewrite (andb_comm (truthy_int (win_get_xid wb))).
  - rewrite (equals_windows_decide a b wa wb), (equals_windows_decide b a wb wa);
      try assumption; try (unfold id_undecided; now rewrite Ta, Tb).
    f_equal. rewrite (Z.eqb_sym (win_get_xid wb)).
    now rewrite (andb_comm (truthy_int (win_get_xid wb))).
  - rewrite (equals_windows_decide a b wa wb), (equals_windows_decide b a wb wa);
      try assumption; try (unfold id_undecided; now rewrite Ta, Tb).
    f_equal. rewrite (Z.eqb_sym (win_get_xid wb)).
    now rewrite (andb_comm (truthy_int (win_get_xid wb))).
Qed.

Lemma equals_symmetric_with_windows_witness :
  equals (sample_record (Some "abc123") (Some (sample_window 7)))
         (sample_record None (Some (sample_window 7))) =
  equals (sample_record None (Some (sample_window 7)))
         (sample_record (Some "abc123") (Some (sample_window 7))).
Proof.
  apply (equals_symmetric_with_windows
           (sample_record (Some "abc123") (Some (sample_window 7)))
           (sample_record None (Some (sample_window 7)))
           (sample_window 7) (sample_window 7)); reflexivity.
Defined.

(** X14: [equals] is not transitive: a record without an id is equal to
    each of two records that share its (non-zero) window identifier, while
    those two, having different non-empty ids, are not equal to each
    other. *)
Theorem equals_not_transitive (a b c : HomeActivity) (wa wb wc : Window) :
  truthy_str (_activity_id a) = true ->
  truthy_str (_activity_id b) = false ->
  truthy_str (_activity_id c) = true ->
  _activity_id a <> _activity_id c ->
  _window a = Some wa -> _window b = Some wb -> _window c = Some wc ->
  win_get_xid wa = win_get_xid wb ->
  win_get_xid wb = win_get_xid wc ->
  win_get_xid wb <> 0 ->
  equals a b = Ok true /\ equals b c = Ok true /\ equals a c = Ok false.
Proof.
  intros Ta Tb Tc Hne Ha Hb Hc Eab Ebc Hnz.
  apply truthy_int_true in Hnz.
  repeat split.
  - rewrite (equals_windows_decide a b wa wb); try assumption;
      [|unfold id_undecided; now rewrite Ta, Tb].
    now rewrite Eab, Hnz, Z.eqb_refl.
  - rewrite (equals_windows_decide b c wb wc); try assumption;
      [|unfold id_undecided; now rewrite Tb].
    now rewrite <- Ebc, Hnz, Z.eqb_refl.
  - rewrite (equals_ids_decide a c Ta Tc). f_equal.
    now apply py_str_eq_false.
Qed.

Lemma equals_not_transitive_witness :
  equals id_differs_same_window_a
         (sample_record None (Some (sample_window 7))) = Ok true /\
  equals (sample_record None (Some (sample_window 7)))
         id_differs_same_window_b = Ok true /\
  equals id_differs_same_window_a id_differs_same_window_b = Ok false.
Proof.
  apply (equals_not_transitive id_differs_same_window_a
           (sample_record None (Some (sample_window 7)))
           id_differs_same_window_b
           (sample_window 7) (sample_window 7) (sample_window 7));
    try reflexivity; discriminate.
Defined.

(** X15: a record is equal to itself exactly when it has a non-empty id or
    a window with a non-zero identifier. *)
Theorem equals_self (a : HomeActivity) :
  equals a a = Ok true <->
  truthy_str (_activity_id a) = true \/
  exists w, _window a = Some w /\ win_get_xid w <> 0.
Proof.
  destruct (truthy_str (_activity_id a)) eqn:T.
  - rewrite (equals_ids_decide a a T T).
    rewrite (proj2 (py_str_eq_true _ _) eq_refl). split; auto.
  - assert (Hid : id_undecided a a) by (unfold id_undecided; now rewrite T).
    destruct (_window a) as [w|] eqn:Hw.
    + rewrite (equals_windows_decide a a w w Hid Hw Hw), Z.eqb_refl.
      destruct (truthy_int (win_get_xid w)) eqn:Hx; simpl; split.
      * intros _. right. exists w. split; [reflexivity|].
        now apply truthy_int_true.
      * reflexivity.
      * discriminate.
      * intros [H | (w' & [= <-] & Hnz)]; [discriminate|].
        apply truthy_int_true in Hnz. congruence.
    + rewrite (equals_absent_window_raises a a Hid Hw). split.
      * discriminate.
      * intros [H | (w' & H & _)]; discriminate.
Qed.

(** ** Accessors that need a window *)

(** X16: after any sequence of calls, [get_xid] and [get_pid] raise
    [AttributeError] exactly when no window has ever been attached, and
    in that case the title is empty and the record has no bundle type. *)
Theorem window_accessors_raise_iff_never_attached
    (wm_get_bundle_id : Window -> option string) (cs : list Call) (w : World) :
  (get_xid (self (run_calls cs w)) =
     Raise (AttributeError "'NoneType' object has no attribute 'get_xid'") <->
   last_window cs (get_window (self w)) = None) /\
  (get_pid (self (run_calls cs w)) =
     Raise (AttributeError "'NoneType' object has no attribute 'get_pid'") <->
   last_window cs (get_window (self w)) = None) /\
  (last_window cs (get_window (self w)) = None ->
   get_title (self (run_calls cs w)) = EmptyString /\
   get_type wm_get_bundle_id (self (run_calls cs w)) = None /\
   is_journal wm_get_bundle_id (self (run_calls cs w)) = false).
Proof.
  unfold get_window, get_xid, get_pid, get_title, is_journal, get_type.
  rewrite (run_calls_window cs w).
  destruct (last_window cs (_window (self w))) as [win|]; repeat split;
    intros; try discriminate; reflexivity.
Qed.

Lemma window_accessors_raise_iff_never_attached_witness :
  get_title
    (self (run_calls [CallSetWindow None; CallSetActive true]
             (mkWorld (sample_record (Some "abc123") None) []))) =
    EmptyString /\
  get_type journal_wm
    (self (run_calls [CallSetWindow None; CallSetActive true]
             (mkWorld (sample_record (Some "abc123") None) []))) = None /\
  is_journal journal_wm
    (self (run_calls [CallSetWindow None; CallSetActive true]
             (mkWorld (sample_record (Some "abc123") None) []))) = false.
Proof.
  apply (proj2 (proj2 (window_accessors_raise_iff_never_attached journal_wm
                         [CallSetWindow None; CallSetActive true]
                         (mkWorld (sample_record (Some "abc123") None) [])))).
  reflexivity.
Defined.

(** ** The icon *)

(** X17: for the journal the icon is the built-in one under the data
    path, whatever the type metadata says: the data path, a ['/'] unless
    the data path is empty or already ends with one, and
    ['icons/activity-journal.svg']. For any other record the icon is the
    metadata's, and it is absent exactly when the record is not the
    journal and has no metadata. *)
Theorem get_icon_path_cases (wm_get_bundle_id : Window -> option string)
    (config_data_path : string) (a : HomeActivity) :
  (is_journal wm_get_bundle_id a = true ->
   get_icon_path wm_get_bundle_id config_data_path a =
     Some (config_data_path ++
           (if (String.eqb config_data_path EmptyString ||
                ends_with_slash config_data_path)%bool
            then EmptyString else "/") ++
           "icons/activity-journal.svg")) /\
  (is_journal wm_get_bundle_id a = false ->
   get_icon_path wm_get_bundle_id config_data_path a =
     option_map icon (_activity_info a)) /\
  (get_icon_path wm_get_bundle_id config_data_path a = None <->
   is_journal wm_get_bundle_id a = false /\ _activity_info a = None).
Proof.
  unfold get_icon_path.
  destruct (is_journal wm_get_bundle_id a).
  - split; [|split; [discriminate|split; [discriminate|]]].
    + intros _. unfold os_path_join. cbn [append].
      destruct (String.eqb config_data_path EmptyString ||
                ends_with_slash config_data_path)%bool; reflexivity.
    + intros [H _]. discriminate.
  - split; [discriminate|split; [|split]].
    + intros _. destruct (_activity_info a); reflexivity.
    + destruct (_activity_info a); [discriminate|]. now split.
    + intros [_ ->]. reflexivity.
Qed.

Lemma get_icon_path_cases_witness :
  get_icon_path journal_wm "/usr/share/sugar/shell"
    (sample_record (Some "abc123") (Some (sample_window 1))) =
    Some "/usr/share/sugar/shell/icons/activity-journal.svg" /\
  get_icon_path journal_wm "/usr/share/sugar/shell"
    (sample_record (Some "abc123") (Some (sample_window 7))) =
    Some "activity-write.svg".
Proof.
  split.
  - apply (proj1 (get_icon_path_cases journal_wm "/usr/share/sugar/shell"
                    (sample_record (Some "abc123") (Some (sample_window 1))))).
    reflexivity.
  - apply (proj1 (proj2 (get_icon_path_cases journal_wm "/usr/share/sugar/shell"
                    (sample_record (Some "abc123") (Some (sample_window 7)))))).
    reflexivity.
Defined.

(** ** The icon colour *)



(** X19: the colour depends on the presence service's list only up to its
    first entry with the record's id: what follows that entry does not
    matter. *)
Theorem get_icon_color_first_match (pre post post' : list PSActivity)
    (act : PSActivity) (profile_color : XoColor) (a : HomeActivity) :
  Some (props_id act) = get_activity_id a ->
  get_icon_color (pre ++ act :: post) profile_color a =
  get_icon_color (pre ++ act :: post') profile_color a.
Proof.
  unfold get_activity_id, get_icon_color. intros H.
  induction pre as [|x rest IH]; cbn [app scan_activities].
  - rewrite <- H, (proj2 (py_str_eq_true _ _) eq_refl). reflexivity.
  - destruct (py_str_eq _ _); [reflexivity|exact IH].
Qed.

Lemma get_icon_color_first_match_witness :
  get_icon_color ([mkPSActivity "zzz" "#000000,#111111"] ++
                  mkPSActivity "abc123" "#222222,#333333" ::
                  [mkPSActivity "abc123" "#444444,#555555"])
                 (mkXoColor "#FF0000,#00FF00")
                 (sample_record (Some "abc123") None) =
  get_icon_color ([mkPSActivity "zzz" "#000000,#111111"] ++
                  mkPSActivity "abc123" "#222222,#333333" :: [])
                 (mkXoColor "#FF0000,#00FF00")
                 (sample_record (Some "abc123") None).
Proof.
  apply (get_icon_color_first_match
           [mkPSActivity "zzz" "#000000,#111111"]
           [mkPSActivity "abc123" "#444444,#555555"] []
           (mkPSActivity "abc123" "#222222,#333333")
           (mkXoColor "#FF0000,#00FF00")
           (sample_record (Some "abc123") None)).
  reflexivity.
Defined.

(** ** From no service to a bound service *)

(** X20: a matching notification answered by the bus rebinds the handle,
    whatever it was before: the callback calls [SetActive(True)] on the
    new handle, and the next [set_active] goes to the new handle too. *)
Theorem set_active_uses_latest_handle (bus : Bus) (name old new : string)
    (w : World) (proxy : ProxyObject) (state : bool) :
  _get_service_name (self w) = Some name ->
  (forall object_path, bus (Some name) object_path = Some proxy) ->
  let w' := run_calls [SignalNameOwnerChanged bus name old new;
                       CallSetActive state] w in
  get_service (self w') = Some (mkInterface proxy "org.laptop.Activity") /\
  exists object_path,
    trace w' =
      (trace w ++
       [EvSessionBus;
        EvGetObject (Some name) object_path;
        EvSetActive (mkInterface proxy "org.laptop.Activity") true;
        EvSetActive (mkInterface proxy "org.laptop.Activity") state])%list.
Proof.
  intros Hn Hbus w'. subst w'.
  destruct (get_service_name_some _ _ Hn) as (c & r & Hid & ->).
  cbn [run_calls run_call].
  rewrite (name_owner_changed_cb_match bus old new w c r Hid), Hbus.
  cbn [snd]. unfold set_active, bind, get_self, emit.
  cbn [self trace with_service _service snd]. unfold get_service.
  cbn [_service]. split; [reflexivity|].
  exists (_SERVICE_PATH ++ "/" ++ String c r).
  rewrite <- app_assoc. reflexivity.
Qed.

Lemma set_active_uses_latest_handle_witness :
  let w' := run_calls [SignalNameOwnerChanged
                         (fun n _ => Some (mkProxyObject n "/elsewhere"))
                         "org.laptop.Activityabc123" EmptyString ":1.42";
                       CallSetActive false]
              (snd (HomeActivity_new full_bus (1194000000 # 1)
                                     (Some sample_info) (Some "abc123")
                                     None [])) in
  get_service (self w') =
    Some (mkInterface (mkProxyObject (Some "org.laptop.Activityabc123")
                                     "/elsewhere")
                      "org.laptop.Activity") /\
  exists object_path,
    trace w' =
      (trace (snd (HomeActivity_new full_bus (1194000000 # 1)
                                    (Some sample_info) (Some "abc123")
                                    None [])) ++
       [EvSessionBus;
        EvGetObject (Some "org.laptop.Activityabc123") object_path;
        EvSetActive
          (mkInterface (mkProxyObject (Some "org.laptop.Activityabc123")
                                      "/elsewhere")
                       "org.laptop.Activity") true;
        EvSetActive
          (mkInterface (mkProxyObject (Some "org.laptop.Activityabc123")
                                      "/elsewhere")
                       "org.laptop.Activity") false])%list.
Proof.
  apply (set_active_uses_latest_handle
           (fun n _ => Some (mkProxyObject n "/elsewhere"))
           "org.laptop.Activityabc123" EmptyString ":1.42"
           (snd (HomeActivity_new full_bus (1194000000 # 1)
                                  (Some sample_info) (Some "abc123") None []))
           (mkProxyObject (Some "org.laptop.Activityabc123") "/elsewhere")
           false); reflexivity.
Defined.

(** X21: the late binding of a service. A record constructed with a
    non-empty id while the bus does not know its service subscribes; when
    the notification for its well-known name then arrives and the bus
    answers, the record holds the handle and has told the service it is
    active. The whole exchange is: lookup, subscription, lookup,
    [SetActive(True)]. *)
Theorem late_binding (bus0 bus1 : Bus) (now : Q) (info : option ActivityInfo)
    (aid : string) (window : option Window) (tr : list Event)
    (old new : string) (proxy : ProxyObject) :
  aid <> EmptyString ->
  bus0 (Some ("org.laptop.Activity" ++ aid)) ("/org/laptop/Activity/" ++ aid) =
    None ->
  bus1 (Some ("org.laptop.Activity" ++ aid)) ("/org/laptop/Activity/" ++ aid) =
    Some proxy ->
  let w0 := snd (HomeActivity_new bus0 now info (Some aid) window tr) in
  let w1 := run_calls [SignalNameOwnerChanged bus1 ("org.laptop.Activity" ++ aid)
                                              old new] w0 in
  get_service (self w0) = None /\
  get_service (self w1) = Some (mkInterface proxy "org.laptop.Activity") /\
  trace w1 =
    (tr ++
     [EvSessionBus;
      EvGetObject (Some ("org.laptop.Activity" ++ aid)%string)
                  ("/org/laptop/Activity/" ++ aid)%string;
      EvSessionBus;
      EvAddSignalReceiver "NameOwnerChanged" "org.freedesktop.DBus";
      EvSessionBus;
      EvGetObject (Some ("org.laptop.Activity" ++ aid)%string)
                  ("/org/laptop/Activity/" ++ aid)%string;
      EvSetActive (mkInterface proxy "org.laptop.Activity") true])%list.
Proof.
  intros Hne H0 H1 w0 w1. subst w1 w0.
  destruct aid as [|c s]; [contradiction|].
  rewrite new_with_nonempty_id.
  change (_SERVICE_PATH ++ "/" ++ String c s)
    with ("/org/laptop/Activity/" ++ String c s).
  change (_SERVICE_NAME ++ String c s)
    with ("org.laptop.Activity" ++ String c s).
  rewrite H0. cbn [snd run_calls run_call].
  change ("org.laptop.Activity" ++ String c s)
    with (_SERVICE_NAME ++ String c s) at 1.
  rewrite name_owner_changed_cb_match with (c := c) (r := s) by reflexivity.
  change (_SERVICE_PATH ++ "/" ++ String c s)
    with ("/org/laptop/Activity/" ++ String c s).
  change (_SERVICE_NAME ++ String c s)
    with ("org.laptop.Activity" ++ String c s).
  rewrite H1. cbn [snd self trace with_service]. unfold get_service.
  cbn [_service]. repeat split. rewrite <- app_assoc. reflexivity.
Qed.

Lemma late_binding_witness :
  let w0 := snd (HomeActivity_new no_bus (1194000000 # 1) (Some sample_info)
                                  (Some "abc123") None []) in
  let w1 := run_calls [SignalNameOwnerChanged full_bus
                         ("org.laptop.Activity" ++ "abc123")
                         EmptyString ":1.42"] w0 in
  get_service (self w0) = None /\
  get_service (self w1) =
    Some (mkInterface
            (mkProxyObject (Some ("org.laptop.Activity" ++ "abc123"))
                           ("/org/laptop/Activity/" ++ "abc123"))
            "org.laptop.Activity") /\
  trace w1 =
    ([] ++
     [EvSessionBus;
      EvGetObject (Some ("org.laptop.Activity" ++ "abc123")%string)
                  ("/org/laptop/Activity/" ++ "abc123")%string;
      EvSessionBus;
      EvAddSignalReceiver "NameOwnerChanged" "org.freedesktop.DBus";
      EvSessionBus;
      EvGetObject (Some ("org.laptop.Activity" ++ "abc123")%string)
                  ("/org/laptop/Activity/" ++ "abc123")%string;
      EvSetActive
        (mkInterface
           (mkProxyObject (Some ("org.laptop.Activity" ++ "abc123")%string)
                          ("/org/laptop/Activity/" ++ "abc123")%string)
           "org.laptop.Activity") true])%list.
Proof.
  apply (late_binding no_bus full_bus (1194000000 # 1) (Some sample_info)
           "abc123" None [] EmptyString ":1.42"
           (mkProxyObject (Some ("org.laptop.Activity" ++ "abc123"))
                          ("/org/laptop/Activity/" ++ "abc123")));
    [discriminate | reflexivity | reflexivity].
Defined.
